(** * A shallow embedding of the paste server of [src/app.js]

    The program is an Express application over one in-memory array of
    pastes and one running counter.  The embedding keeps the shape of the
    source: JavaScript values, the store ([pastes], [lastPasteId]), each
    middleware function, and the ordered stack of layers that Express walks
    for one request ([next()], [next(err)], [res.json(...)]). *)

From Stdlib Require Import ZArith List String Ascii Bool Lia Sorted.
Import ListNotations.

Open Scope string_scope.
Open Scope Z_scope.

Set Warnings "-register-all".

(** ** JavaScript values *)

(** The values that travel through the handlers: what [express.json()]
    leaves in [req.body], plus [undefined].  Numbers are the integer-valued
    doubles, written as integers; arithmetic on them rounds as doubles do
    ([round_double] below).  An object is its list of own properties, one
    entry per key, in insertion order. *)
Inductive value : Type :=
| VUndefined
| VNull
| VBool (b : bool)
| VNum (n : Z)
| VStr (s : string)
| VArr (items : list value)
| VObj (fields : list (string * value)).

(** [obj.k] on a property list: the stored value, [undefined] when absent. *)
Fixpoint lookup (k : string) (fields : list (string * value)) : value :=
  match fields with
  | [] => VUndefined
  | (k', v) :: rest => if String.eqb k k' then v else lookup k rest
  end.

(** *** Numbers

    A JavaScript number is a double: 53 bits of mantissa.  Every integer of
    magnitude up to 2^53 is one; above, the doubles are 2^e apart (e = 1
    from 2^53 to 2^54, and so on) and the result of an operation is the
    nearest of them, the one with the even mantissa on a tie.  (Integers
    beyond the largest double, near 2^1024, are no numbers of the program;
    adding 1 to a double never gets there.) *)
Definition round_double (z : Z) : Z :=
  if Z.abs z <=? 9007199254740992 then z
  else
    let a := Z.abs z in
    let ulp := 2 ^ (Z.log2 a - 52) in
    let q := a / ulp in
    let r := a mod ulp in
    let nearest :=
      if 2 * r <? ulp then q * ulp
      else if ulp <? 2 * r then (q + 1) * ulp
      else if Z.even q then q * ulp
      else (q + 1) * ulp in
    Z.sgn z * nearest.

(** [++n] on a number: [n + 1] as a double.  From 2^53 on the sum is no
    double any more and rounds, at 2^53 back to 2^53. *)
Definition increment (n : Z) : Z := round_double (n + 1).

(** ToBoolean, as used by [if (text)]. *)
Definition truthy (v : value) : bool :=
  match v with
  | VUndefined | VNull => false
  | VBool b => b
  | VNum n => negb (n =? 0)
  | VStr s => negb (String.eqb s "")
  | VArr _ | VObj _ => true
  end.

(** A destructuring default [x = d]: it applies only to [undefined]. *)
Definition default (d v : value) : value :=
  match v with
  | VUndefined => d
  | _ => v
  end.

(** ** The platform

    Three things the program relies on come from the JavaScript engine, not
    from the repository: the coercion [Number(string)] (here with result
    [None] for every outcome that is not an integer: NaN, fractions,
    infinities), the wording of the [TypeError] raised when a property is
    destructured out of [null] or [undefined], and [decodeURIComponent],
    which Express applies to a path parameter ([None] when it throws a
    [URIError] on a malformed escape). *)
Class Platform : Type := {
  Number : string -> option Z;
  type_error_message : string -> string;
  decodeURIComponent : string -> option string
}.

(** ** Exceptions *)

Inductive Result (A : Type) : Type :=
| Ok (a : A)
| Throw (message : string).
Arguments Ok {A} a.
Arguments Throw {A} message.

Definition bind {A B : Type} (r : Result A) (k : A -> Result B) : Result B :=
  match r with
  | Ok a => k a
  | Throw m => Throw m
  end.

Notation "x <- r ;; k" := (bind r (fun x => k))
  (at level 61, r at next level, right associativity).

(** ** Requests, responses, errors, the store *)

Inductive Method : Type := GET | HEAD | POST | PUT | PATCH | DELETE | OPTIONS.

(** A request as Express hands it to the application: [path] is the list
    of segments of the pathname as they are written in the URL, escapes
    included ([/pastes/7] is [["pastes"; "7"]], a trailing slash leaves a
    last empty segment), [body] is [req.body] after [express.json()]. *)
Record Request : Type := {
  method : Method;
  originalUrl : string;
  path : list string;
  body : value
}.

(** What [res.status(s).json(b)] writes. *)
Record Response : Type := {
  statusCode : value;
  json : value
}.

(** A paste, with the seven properties of the object literal in the create
    handler.  The seeded records come from [./data/pastes-data], which is
    not among the sources at hand: they are the parameter [seed] of
    [initial], pastes of this same shape with integer ids. *)
Record Paste : Type := {
  id : Z;
  name : value;
  syntax : value;
  exposure : value;
  expiration : value;
  text : value;
  user_id : value
}.

(** The paste as the object that [res.json] serialises. *)
Definition paste_value (p : Paste) : value :=
  VObj [("id", VNum (id p)); ("name", name p); ("syntax", syntax p);
        ("exposure", exposure p); ("expiration", expiration p);
        ("text", text p); ("user_id", user_id p)].

(** The module-level state: the array [pastes] and [let lastPasteId]. *)
Record Store : Type := {
  pastes : list Paste;
  lastPasteId : Z
}.

(** [pastes.reduce((maxId, paste) => Math.max(maxId, paste.id), 0)] *)
Definition reduce_max (seed : list Paste) : Z :=
  fold_left (fun maxId paste => Z.max maxId (id paste)) seed 0.

(** The state when the module has been loaded over the seeded records. *)
Definition initial (seed : list Paste) : Store :=
  {| pastes := seed; lastPasteId := reduce_max seed |}.

(** What reaches the error handler: the argument of [next(err)], which in
    this program is a string or an object literal, or an exception thrown
    inside a handler (Express catches it and forwards it). *)
Inductive Signal : Type :=
| SigText (s : string)
| SigObject (fields : list (string * value))
| SigThrown (message : string).

(** [error.k] for the two properties the error handler reads.  A string
    has neither; a thrown [Error] has [message] only. *)
Definition signal_prop (error : Signal) (k : string) : value :=
  match error with
  | SigText _ => VUndefined
  | SigObject fields => lookup k fields
  | SigThrown m => if String.eqb k "message" then VStr m else VUndefined
  end.

(** How a middleware function leaves: [res.json(...)], [next()],
    [next(err)] (or a throw). *)
Inductive Outcome : Type :=
| Respond (res : Response)
| Next
| NextErr (error : Signal).

Definition Params : Type := list (string * string).

Fixpoint param (k : string) (params : Params) : option string :=
  match params with
  | [] => None
  | (k', v) :: rest => if String.eqb k k' then Some v else param k rest
  end.

Definition Middleware : Type := Params -> Request -> Store -> Store * Outcome.
Definition ErrorMiddleware : Type := Signal -> Request -> Store -> Store * Outcome.

(** ** The middleware functions of [app.js] *)

Section Application.
Context {platform : Platform}.

(** [value.k] inside a destructuring pattern: a [TypeError] when the value
    is [null] or [undefined].  Only the keys of the program are read
    ([data], [text], [name], ...), none of which a string, a number, a
    boolean or an array has. *)
Definition property (v : value) (k : string) : Result value :=
  match v with
  | VUndefined | VNull => Throw (type_error_message k)
  | VObj fields => Ok (lookup k fields)
  | VBool _ | VNum _ | VStr _ | VArr _ => Ok VUndefined
  end.

(** The common part of both patterns, [{ data: {...} = {} } = req.body]:
    the object the inner pattern is matched against. *)
Definition body_data (reqBody : value) : Result value :=
  data <- property reqBody "data" ;;
  Ok (default (VObj []) data).

(** [bodyHasTextProperty], lines 48-57. *)
Definition bodyHasTextProperty : Middleware := fun _ req st =>
  match (data <- body_data (body req) ;; property data "text") with
  | Throw m => (st, NextErr (SigThrown m))
  | Ok text =>
      if truthy text then (st, Next)
      else (st, NextErr (SigObject [("status", VNum 400);
                                    ("message", VStr "A 'text' property is required.")]))
  end.

(** The lookup middleware mounted on [/pastes/:pasteId], lines 69-78.
    [paste.id === Number(pasteId)] holds when the coercion gives that very
    integer; [req.params.pasteId] is a string (the decoded segment), which
    the template literal copies as it is. *)
Definition same_id (pasteId : option string) (paste : Paste) : bool :=
  match pasteId with
  | Some s => match Number s with
              | Some n => id paste =? n
              | None => false
              end
  | None => false
  end.

Definition template (pasteId : option string) : string :=
  match pasteId with
  | Some s => s
  | None => "undefined"
  end.

Definition lookupPaste : Middleware := fun params req st =>
  let pasteId := param "pasteId" params in
  match find (same_id pasteId) (pastes st) with
  | Some foundPaste =>
      (st, Respond {| statusCode := VNum 200;
                      json := VObj [("data", paste_value foundPaste)] |})
  | None =>
      (st, NextErr (SigObject [("status", VNum 404);
                               ("message", VStr ("Paste id not found: " ++ template pasteId))]))
  end.

(** [app.get("/pastes", ...)], lines 80-82. *)
Definition listPastes : Middleware := fun _ req st =>
  (st, Respond {| statusCode := VNum 200;
                  json := VObj [("data", VArr (map paste_value (pastes st)))] |}).

(** [app.post("/pastes", bodyHasTextProperty, ...)], the handler of lines
    89-102: [++lastPasteId], the object literal, [pastes.push], the 201. *)
Definition createPaste : Middleware := fun _ req st =>
  match body_data (body req) with
  | Throw m => (st, NextErr (SigThrown m))
  | Ok data =>
      match (name <- property data "name" ;;
             syntax <- property data "syntax" ;;
             exposure <- property data "exposure" ;;
             expiration <- property data "expiration" ;;
             text <- property data "text" ;;
             user_id <- property data "user_id" ;;
             Ok (fun newId =>
                   {| id := newId; name := name; syntax := syntax;
                      exposure := exposure; expiration := expiration;
                      text := text; user_id := user_id |})) with
      | Throw m => (st, NextErr (SigThrown m))
      | Ok literal =>
          let lastPasteId' := increment (lastPasteId st) in
          let newPaste := literal lastPasteId' in
          ({| pastes := (pastes st ++ [newPaste])%list; lastPasteId := lastPasteId' |},
           Respond {| statusCode := VNum 201;
                      json := VObj [("data", paste_value newPaste)] |})
      end
  end.

(** The not-found handler, lines 109-111. *)
Definition notFound : Middleware := fun _ req st =>
  (st, NextErr (SigText ("Not found: " ++ originalUrl req))).

(** The general error handler, lines 129-133. *)
Definition errorHandler : ErrorMiddleware := fun error req st =>
  let status := default (VNum 500) (signal_prop error "status") in
  let message := default (VStr "Something went wrong!") (signal_prop error "message") in
  (st, Respond {| statusCode := status; json := VObj [("error", message)] |}).

End Application.

(** ** Routing

    Express keeps the layers in the order of the [app.use], [app.get] and
    [app.post] calls and walks them for each request.  With the default
    settings a path pattern is matched without regard to case and a route
    tolerates one trailing slash; [app.use] matches a prefix of the path,
    [app.get] and [app.post] the whole path.  A layer is matched in two
    steps, as Express does: the pattern against the path, which captures
    the raw segments of the parameters, then [decodeURIComponent] on each
    capture; a capture that does not decode makes the match fail with an
    error of status 400, which becomes the pending error. *)

Inductive Segment : Type :=
| Lit (s : string)
| Param (name : string).

Definition lower_ascii (c : ascii) : ascii :=
  let n := N_of_ascii c in
  if ((65 <=? n) && (n <=? 90))%N then ascii_of_N (n + 32) else c.

Fixpoint lower (s : string) : string :=
  match s with
  | EmptyString => EmptyString
  | String c rest => String (lower_ascii c) (lower rest)
  end.

(** One segment against the pattern: the capture is the raw segment. *)
Definition segment_match (seg : Segment) (s : string) : option Params :=
  match seg with
  | Lit l => if String.eqb (lower l) (lower s) then Some [] else None
  | Param k => if String.eqb s "" then None else Some [(k, s)]
  end.

(** The pattern of an [app.use]: a prefix of the path. *)
Fixpoint match_prefix (pattern : list Segment) (p : list string) : option Params :=
  match pattern, p with
  | [], _ => Some []
  | _ :: _, [] => None
  | seg :: pattern', s :: p' =>
      match segment_match seg s, match_prefix pattern' p' with
      | Some ps, Some ps' => Some (ps ++ ps')%list
      | _, _ => None
      end
  end.

(** The pattern of a route: the whole path, up to a trailing slash. *)
Fixpoint match_exact (pattern : list Segment) (p : list string) : option Params :=
  match pattern, p with
  | [], [] => Some []
  | [], [s] => if String.eqb s "" then Some [] else None
  | [], _ :: _ :: _ => None
  | _ :: _, [] => None
  | seg :: pattern', s :: p' =>
      match segment_match seg s, match_exact pattern' p' with
      | Some ps, Some ps' => Some (ps ++ ps')%list
      | _, _ => None
      end
  end.

(** The error Express raises for a capture that does not decode. *)
Definition decode_error (val : string) : Signal :=
  SigObject [("message", VStr ("Failed to decode param '" ++ val ++ "'"));
             ("status", VNum 400); ("statusCode", VNum 400)].

Inductive Matched : Type :=
| NoMatch
| Match (params : Params)
| MatchError (error : Signal).

Section Decoding.
Context {platform : Platform}.

(** The captures decoded in order; the first that fails is reported. *)
Fixpoint decode_params (captures : Params) : Params + string :=
  match captures with
  | [] => inl []
  | (k, val) :: rest =>
      match decodeURIComponent val with
      | None => inr val
      | Some v =>
          match decode_params rest with
          | inl params => inl ((k, v) :: params)
          | inr bad => inr bad
          end
      end
  end.

Definition decoded (captures : option Params) : Matched :=
  match captures with
  | None => NoMatch
  | Some raw =>
      match decode_params raw with
      | inl params => Match params
      | inr bad => MatchError (decode_error bad)
      end
  end.

End Decoding.

Inductive Layer : Type :=
| Use (pattern : list Segment) (fn : Middleware)
| Route (methods : list Method) (pattern : list Segment) (stack : list Middleware)
| UseError (fn : ErrorMiddleware).

Definition Method_eqb (a b : Method) : bool :=
  match a, b with
  | GET, GET | HEAD, HEAD | POST, POST | PUT, PUT
  | PATCH, PATCH | DELETE, DELETE | OPTIONS, OPTIONS => true
  | _, _ => false
  end.

Definition handles (methods : list Method) (m : Method) : bool :=
  existsb (Method_eqb m) methods.

(** The handlers of one route, in order: [next()] moves to the following
    one, anything else leaves the route. *)
Fixpoint run_stack (stack : list Middleware) (params : Params) (req : Request)
    (st : Store) : Store * Outcome :=
  match stack with
  | [] => (st, Next)
  | fn :: rest =>
      match fn params req st with
      | (st', Next) => run_stack rest params req st'
      | leave => leave
      end
  end.

(** One request through the layers.  [err] is the pending error, if any:
    without one the error handlers are skipped, with one everything else
    is.  The result is [None] when no layer answered (Express then falls
    back on its own final handler). *)
Fixpoint dispatch {platform : Platform} (layers : list Layer) (err : option Signal)
    (req : Request) (st : Store) : Store * option Response :=
  match layers with
  | [] => (st, None)
  | layer :: rest =>
      let continue (r : Store * Outcome) :=
        match r with
        | (st', Respond res) => (st', Some res)
        | (st', Next) => dispatch rest None req st'
        | (st', NextErr e) => dispatch rest (Some e) req st'
        end in
      match err, layer with
      | None, Use pattern fn =>
          match decoded (match_prefix pattern (path req)) with
          | Match params => continue (fn params req st)
          | MatchError e => dispatch rest (Some e) req st
          | NoMatch => dispatch rest None req st
          end
      | None, Route methods pattern stack =>
          match decoded (match_exact pattern (path req)) with
          | Match params =>
              if handles methods (method req)
              then continue (run_stack stack params req st)
              else dispatch rest None req st
          | MatchError e => dispatch rest (Some e) req st
          | NoMatch => dispatch rest None req st
          end
      | Some e, UseError fn => continue (fn e req st)
      | None, UseError _ => dispatch rest None req st
      | Some e, _ => dispatch rest (Some e) req st
      end
  end.

Section Server.
Context {platform : Platform}.

(** The application, in the order of the source: lines 69, 80, 89, 109 and
    129.  [app.get] also serves HEAD. *)
Definition app : list Layer :=
  [ Use [Lit "pastes"; Param "pasteId"] lookupPaste;
    Route [GET; HEAD] [Lit "pastes"] [listPastes];
    Route [POST] [Lit "pastes"] [bodyHasTextProperty; createPaste];
    Use [] notFound;
    UseError errorHandler ].

Definition handle (req : Request) (st : Store) : Store * option Response :=
  dispatch app None req st.

(** Requests served one after the other, with the responses in order. *)
Fixpoint serve (reqs : list Request) (st : Store) : Store * list (option Response) :=
  match reqs with
  | [] => (st, [])
  | req :: rest =>
      let (st', res) := handle req st in
      let (st'', ress) := serve rest st' in
      (st'', res :: ress)
  end.

(** Line 5, [app.use(express.json())], runs before all the layers of
    [app].  What it does with the bytes of a request is the library's; the
    application sees one of two outcomes: the request passed on with
    [req.body] set, or an error signalled (an object with [status] and
    [message]: bad JSON, unsupported encoding, body too large), in which
    case every layer up to the error handler is skipped. *)
Inductive Incoming : Type :=
| Parsed (req : Request)
| Unparsed (req : Request) (error : list (string * value)).

Definition receive (i : Incoming) (st : Store) : Store * option Response :=
  match i with
  | Parsed req => handle req st
  | Unparsed req error => dispatch app (Some (SigObject error)) req st
  end.

End Server.

(** ** Reading requests and responses *)

(** The request is on the path [/pastes] (the pattern of both routes). *)
Definition at_pastes (req : Request) : bool :=
  match match_exact [Lit "pastes"] (path req) with
  | Some _ => true
  | None => false
  end.

(** The raw segment that the pattern [/pastes/:pasteId] captures, when
    the path of the request matches it. *)
Definition paste_segment (req : Request) : option string :=
  match match_prefix [Lit "pastes"; Param "pasteId"] (path req) with
  | Some captures => param "pasteId" captures
  | None => None
  end.

(** [req.params.pasteId] in the lookup middleware: the captured segment,
    decoded.  [None] when the path does not match or the segment does not
    decode (the middleware does not run then). *)
Definition pasteId_param {platform : Platform} (req : Request) : option string :=
  match paste_segment req with
  | Some raw => decodeURIComponent raw
  | None => None
  end.

Definition ok (data : value) : Response :=
  {| statusCode := VNum 200; json := VObj [("data", data)] |}.

Definition created201 (data : value) : Response :=
  {| statusCode := VNum 201; json := VObj [("data", data)] |}.

Definition failure (status : Z) (message : string) : Response :=
  {| statusCode := VNum status; json := VObj [("error", VStr message)] |}.

(** A response of the create handler: status 201. *)
Definition is_created (r : option Response) : bool :=
  match r with
  | Some {| statusCode := VNum 201 |} => true
  | _ => false
  end.

(** [body.data] of a response. *)
Definition response_data (r : option Response) : value :=
  match r with
  | Some {| json := VObj fields |} => lookup "data" fields
  | _ => VUndefined
  end.

(** The records of the successful creations among the responses, in order. *)
Definition created (rs : list (option Response)) : list value :=
  map response_data (filter is_created rs).

(** [record.id] of a record in a response. *)
Definition id_of (record : value) : value :=
  match record with
  | VObj fields => lookup "id" fields
  | _ => VUndefined
  end.

(** The ids that [k] creations in a row hand out from the counter [n], and
    the counter after them. *)
Fixpoint assigned (n : Z) (k : nat) : list Z :=
  match k with
  | O => []
  | S k' => increment n :: assigned (increment n) k'
  end.

Fixpoint advanced (n : Z) (k : nat) : Z :=
  match k with
  | O => n
  | S k' => advanced (increment n) k'
  end.

(** [from], [from + 1], ... ([n] of them). *)
Fixpoint consecutive (from : Z) (n : nat) : list Z :=
  match n with
  | O => []
  | S n' => from :: consecutive (from + 1) n'
  end.

(** The maximum id among the seeded records, when there is one. *)
Definition seed_max (seed : list Paste) : option Z :=
  match seed with
  | [] => None
  | p :: rest => Some (fold_left Z.max (map id rest) (id p))
  end.

(** [data.k] for a [data] that is neither [null] nor [undefined]. *)
Definition field (data : value) (k : string) : value :=
  match data with
  | VObj fields => lookup k fields
  | _ => VUndefined
  end.

(** The object literal of the create handler over [data], with the new
    [id]. *)
Definition new_paste (data : value) (newId : Z) : Paste :=
  {| id := newId;
     name := field data "name";
     syntax := field data "syntax";
     exposure := field data "exposure";
     expiration := field data "expiration";
     text := field data "text";
     user_id := field data "user_id" |}.

(** The store after [pastes.push(newPaste)] with the counter advanced. *)
Definition pushed (st : Store) (newPaste : Paste) : Store :=
  {| pastes := (pastes st ++ [newPaste])%list;
     lastPasteId := increment (lastPasteId st) |}.

(** No stored id is above the counter. *)
Definition bounded (st : Store) : Prop :=
  Forall (fun paste => id paste <= lastPasteId st) (pastes st).

(** The six properties the create handler copies out of [data]. *)
Definition copied : list string :=
  ["name"; "syntax"; "exposure"; "expiration"; "text"; "user_id"].

(** ** A platform instance for worked examples

    [Number] on unsigned decimal literals (and on the empty string, which
    JavaScript coerces to 0), rounded to a double; every other spelling is
    left as NaN here.  [decodeURIComponent] on strings whose escapes are
    ASCII: an escape needs two hexadecimal digits; the escapes of other
    bytes are left as errors here. *)

Definition digit (c : ascii) : option Z :=
  let n := N_of_ascii c in
  if ((48 <=? n) && (n <=? 57))%N then Some (Z.of_N (n - 48)) else None.

Fixpoint decimal (s : string) (acc : Z) : option Z :=
  match s with
  | EmptyString => Some acc
  | String c rest =>
      match digit c with
      | Some d => decimal rest (10 * acc + d)
      | None => None
      end
  end.

Definition hex (c : ascii) : option N :=
  let n := N_of_ascii c in
  if ((48 <=? n) && (n <=? 57))%N then Some (n - 48)%N
  else if ((65 <=? n) && (n <=? 70))%N then Some (n - 55)%N
  else if ((97 <=? n) && (n <=? 102))%N then Some (n - 87)%N
  else None.

Fixpoint unescape (s : string) : option string :=
  match s with
  | EmptyString => Some EmptyString
  | String "%" (String a (String b rest)) =>
      match hex a, hex b, unescape rest with
      | Some h, Some l, Some rest' =>
          if (16 * h + l <? 128)%N
          then Some (String (ascii_of_N (16 * h + l)) rest')
          else None
      | _, _, _ => None
      end
  | String "%" _ => None
  | String c rest =>
      match unescape rest with
      | Some rest' => Some (String c rest')
      | None => None
      end
  end.

Definition node : Platform :=
  {| Number := fun s => option_map round_double (decimal s 0);
     type_error_message := fun k => "Cannot destructure property '" ++ k ++ "'";
     decodeURIComponent := unescape |}.

Definition paste_of (n : Z) (t : string) : Paste :=
  {| id := n; name := VUndefined; syntax := VUndefined; exposure := VUndefined;
     expiration := VUndefined; text := VStr t; user_id := VUndefined |}.

Definition seed3 : list Paste :=
  [paste_of 1 "one"; paste_of 3 "three"; paste_of 2 "two"].

Definition get_request (url : string) (p : list string) : Request :=
  {| method := GET; originalUrl := url; path := p; body := VObj [] |}.

Definition post_request (url : string) (p : list string) (b : value) : Request :=
  {| method := POST; originalUrl := url; path := p; body := b |}.

Definition hello : value := VObj [("data", VObj [("text", VStr "hello")])].

Definition post_hello : Request := post_request "/pastes" ["pastes"] hello.

(** ** Properties *)

Section Properties.
Context {platform : Platform}.

(** *** Routing facts *)

Lemma paste_pattern_binds (p : list string) (params : Params) :
  match_prefix [Lit "pastes"; Param "pasteId"] p = Some params ->
  exists s, param "pasteId" params = Some s.
Proof.
  destruct p as [|a [|b rest]]; cbn [match_prefix segment_match].
  - discriminate.
  - destruct (String.eqb _ (lower a)); discriminate.
  - destruct (String.eqb _ (lower a)); [|discriminate].
    destruct (String.eqb b ""); [discriminate|].
    intros H; injection H as <-. exists b. reflexivity.
Qed.

Lemma paste_pattern_captures (p : list string) (params : Params) :
  match_prefix [Lit "pastes"; Param "pasteId"] p = Some params ->
  exists s, params = [("pasteId", s)].
Proof.
  destruct p as [|a [|b rest]]; cbn [match_prefix segment_match].
  - discriminate.
  - destruct (String.eqb _ (lower a)); discriminate.
  - destruct (String.eqb _ (lower a)); [|discriminate].
    destruct (String.eqb b ""); [discriminate|].
    intros H; injection H as <-. exists b. reflexivity.
Qed.

Lemma pastes_pattern_captures (p : list string) (params : Params) :
  match_exact [Lit "pastes"] p = Some params -> params = [].
Proof.
  destruct p as [|a [|b [|c rest]]]; cbn [match_exact segment_match]; try discriminate.
  - destruct (String.eqb _ (lower a)); [|discriminate]. intros H; injection H as <-. reflexivity.
  - destruct (String.eqb _ (lower a)); [|discriminate].
    destruct (String.eqb b ""); [|discriminate]. intros H; injection H as <-. reflexivity.
  - destruct (String.eqb _ (lower a)); discriminate.
Qed.

Lemma pastes_is_no_paste (req : Request) :
  at_pastes req = true -> paste_segment req = None.
Proof.
  unfold at_pastes, paste_segment.
  destruct (path req) as [|a [|b [|c rest]]];
    cbn [match_prefix match_exact segment_match]; try discriminate.
  - destruct (String.eqb _ (lower a)); reflexivity.
  - destruct (String.eqb _ (lower a)); [|discriminate].
    destruct (String.eqb b ""); [reflexivity|discriminate].
  - destruct (String.eqb _ (lower a)); discriminate.
Qed.

Lemma no_paste_no_match (req : Request) :
  paste_segment req = None ->
  match_prefix [Lit "pastes"; Param "pasteId"] (path req) = None.
Proof.
  unfold paste_segment.
  destruct (match_prefix _ (path req)) as [params|] eqn:E; [|reflexivity].
  destruct (paste_pattern_binds _ _ E) as [s Hs]. congruence.
Qed.

Lemma paste_segment_match (req : Request) (raw : string) :
  paste_segment req = Some raw ->
  match_prefix [Lit "pastes"; Param "pasteId"] (path req) = Some [("pasteId", raw)].
Proof.
  unfold paste_segment.
  destruct (match_prefix _ (path req)) as [params|] eqn:E; [|discriminate].
  destruct (paste_pattern_captures _ _ E) as [s ->].
  cbn [param String.eqb Ascii.eqb Bool.eqb]. intros H; injection H as ->. reflexivity.
Qed.

(** *** The layers, one request at a time *)

(** Under [/pastes/:pasteId] the lookup middleware decides, whatever the
    method. *)
Lemma handle_paste (req : Request) (st : Store) (s : string) :
  pasteId_param req = Some s ->
  handle req st =
    match find (same_id (Some s)) (pastes st) with
    | Some foundPaste => (st, Some (ok (paste_value foundPaste)))
    | None => (st, Some (failure 404 ("Paste id not found: " ++ s)))
    end.
Proof.
  unfold pasteId_param.
  destruct (paste_segment req) as [raw|] eqn:E; [|discriminate].
  intros Hs. unfold handle, app. cbn [dispatch].
  rewrite (paste_segment_match _ _ E). cbn [decoded decode_params]. rewrite Hs.
  unfold lookupPaste. cbn [param String.eqb Ascii.eqb Bool.eqb].
  destruct (find _ _); reflexivity.
Qed.

(** A segment that does not decode: no middleware of the application runs
    but the error handler, on Express's 400. *)
Lemma handle_bad_param (req : Request) (st : Store) (raw : string) :
  paste_segment req = Some raw -> decodeURIComponent raw = None ->
  handle req st = (st, Some (failure 400 ("Failed to decode param '" ++ raw ++ "'"))).
Proof.
  intros E Hd. unfold handle, app. cbn [dispatch].
  rewrite (paste_segment_match _ _ E). cbn [decoded decode_params]. rewrite Hd.
  reflexivity.
Qed.

(** On [/pastes], GET and HEAD list the store. *)
Lemma handle_list (req : Request) (st : Store) :
  at_pastes req = true -> handles [GET; HEAD] (method req) = true ->
  handle req st = (st, Some (ok (VArr (map paste_value (pastes st))))).
Proof.
  intros Hp Hm. pose proof (no_paste_no_match _ (pastes_is_no_paste _ Hp)) as Hn.
  unfold at_pastes in Hp.
  unfold handle, app. cbn [dispatch]. rewrite Hn. cbn [decoded].
  destruct (match_exact _ (path req)) as [params|] eqn:E; [|discriminate].
  rewrite (pastes_pattern_captures _ _ E). cbn [decoded decode_params].
  rewrite Hm. reflexivity.
Qed.

(** On [/pastes], POST runs the validator and then the create handler. *)
Lemma handle_post (req : Request) (st : Store) :
  at_pastes req = true -> method req = POST ->
  handle req st =
    match (data <- body_data (body req) ;; t <- property data "text" ;; Ok (data, t)) with
    | Throw m => (st, Some (failure 500 m))
    | Ok (data, t) =>
        if truthy t
        then let newPaste := new_paste data (increment (lastPasteId st)) in
             (pushed st newPaste, Some (created201 (paste_value newPaste)))
        else (st, Some (failure 400 "A 'text' property is required."))
    end.
Proof.
  intros Hp Hm. pose proof (no_paste_no_match _ (pastes_is_no_paste _ Hp)) as Hn.
  unfold at_pastes in Hp.
  unfold handle, app. cbn [dispatch]. rewrite Hn. cbn [decoded].
  destruct (match_exact _ (path req)) as [params|] eqn:E; [|discriminate].
  rewrite (pastes_pattern_captures _ _ E). cbn [decoded decode_params].
  rewrite Hm. cbn [handles existsb Method_eqb orb run_stack].
  unfold bodyHasTextProperty, createPaste.
  destruct (body_data (body req)) as [data|m]; cbn [bind]; [|reflexivity].
  destruct data; cbn [property bind]; try reflexivity.
  destruct (truthy (lookup "text" fields)); reflexivity.
Qed.

(** Everything else reaches the not-found handler, whose string the error
    handler cannot read a status or a message from. *)
Lemma handle_unmatched (req : Request) (st : Store) :
  paste_segment req = None ->
  at_pastes req = false \/ handles [GET; HEAD; POST] (method req) = false ->
  handle req st = (st, Some (failure 500 "Something went wrong!")).
Proof.
  intros Hn Hr. apply no_paste_no_match in Hn.
  unfold handle, app. cbn [dispatch]. rewrite Hn. cbn [decoded].
  unfold at_pastes in Hr.
  destruct (match_exact _ (path req)) as [params|] eqn:E.
  - rewrite (pastes_pattern_captures _ _ E). cbn [decoded decode_params].
    destruct Hr as [Hr|Hr]; [discriminate|].
    destruct (method req); try discriminate; reflexivity.
  - reflexivity.
Qed.

(** A pending error always ends in the error handler. *)
Lemma dispatch_error (e : Signal) (req : Request) (st : Store) :
  dispatch app (Some e) req st =
    (st, Some {| statusCode := default (VNum 500) (signal_prop e "status");
                 json := VObj [("error", default (VStr "Something went wrong!")
                                           (signal_prop e "message"))] |}).
Proof. reflexivity. Qed.

(** The five ways a request can go through the layers. *)
Lemma route_cases (req : Request) :
  (exists s, pasteId_param req = Some s) \/
  (exists raw, paste_segment req = Some raw /\ decodeURIComponent raw = None) \/
  (paste_segment req = None /\ at_pastes req = true /\
   handles [GET; HEAD] (method req) = true) \/
  (paste_segment req = None /\ at_pastes req = true /\ method req = POST) \/
  (paste_segment req = None /\
   (at_pastes req = false \/ handles [GET; HEAD; POST] (method req) = false)).
Proof.
  unfold pasteId_param. destruct (paste_segment req) as [raw|].
  - destruct (decodeURIComponent raw) as [s|] eqn:E; [left; eauto|right; left; eauto].
  - do 2 right. destruct (at_pastes req); [|right; right; auto].
    destruct (method req); cbn; auto 10.
Qed.

(** One request either leaves the store alone and answers with a status
    other than 201, or increments the counter, pushes one record with the
    new value as its id and answers 201 with that record. *)
Lemma handle_step (req : Request) (st : Store) :
  (exists res, handle req st = (st, Some res) /\ is_created (Some res) = false) \/
  (exists newPaste, id newPaste = increment (lastPasteId st) /\
     handle req st = (pushed st newPaste, Some (created201 (paste_value newPaste)))).
Proof.
  destruct (route_cases req)
    as [[s Hs]|[(raw & Hr & Hd)|[(Hn & Hp & Hm)|[(Hn & Hp & Hm)|(Hn & Hr)]]]].
  - left. rewrite (handle_paste _ _ _ Hs).
    destruct (find _ _); eexists; split; reflexivity.
  - left. rewrite (handle_bad_param _ _ _ Hr Hd). eexists; split; reflexivity.
  - left. rewrite (handle_list _ _ Hp Hm). eexists; split; reflexivity.
  - rewrite (handle_post _ _ Hp Hm).
    destruct (bind _ _) as [[data t]|m].
    + destruct (truthy t).
      * right. eexists; split; [|reflexivity]. reflexivity.
      * left. eexists; split; reflexivity.
    + left. eexists; split; reflexivity.
  - left. rewrite (handle_unmatched _ _ Hn Hr). eexists; split; reflexivity.
Qed.

(** *** The counter and the store along a run *)

Lemma reduce_from (l : list Paste) (a : Z) :
  fold_left (fun maxId paste => Z.max maxId (id paste)) l a =
  fold_left Z.max (map id l) a.
Proof.
  revert a. induction l as [|p l IH]; intros a; simpl; [reflexivity|apply IH].
Qed.

Lemma fold_max_from (l : list Z) (a b : Z) :
  fold_left Z.max l (Z.max a b) = Z.max a (fold_left Z.max l b).
Proof.
  revert b. induction l as [|x l IH]; intros b; simpl; [reflexivity|].
  rewrite <- IH. f_equal. lia.
Qed.

Lemma fold_max_bounds (l : list Z) (a : Z) :
  a <= fold_left Z.max l a /\ Forall (fun x => x <= fold_left Z.max l a) l.
Proof.
  revert a. induction l as [|x l IH]; intros a; simpl.
  - split; [lia|constructor].
  - destruct (IH (Z.max a x)) as [H1 H2]. split; [lia|].
    constructor; [lia|exact H2].
Qed.

(** The initial counter is the seeded maximum, but never below 0. *)
Lemma reduce_max_floor (seed : list Paste) :
  reduce_max seed =
    match seed_max seed with
    | Some m => Z.max 0 m
    | None => 0
    end.
Proof.
  unfold reduce_max, seed_max. rewrite reduce_from.
  destruct seed as [|p rest]; simpl; [reflexivity|].
  apply fold_max_from.
Qed.

Lemma initial_bounded (seed : list Paste) : bounded (initial seed).
Proof.
  unfold bounded, initial, reduce_max; simpl. rewrite reduce_from.
  destruct (fold_max_bounds (map id seed) 0) as [_ H].
  rewrite Forall_map in H. exact H.
Qed.

Lemma consecutive_length (from : Z) (n : nat) : List.length (consecutive from n) = n.
Proof.
  revert from. induction n as [|n IH]; intros from; simpl; [reflexivity|].
  now rewrite IH.
Qed.

Lemma consecutive_lower (from : Z) (n : nat) :
  Forall (fun x => from <= x) (consecutive from n).
Proof.
  revert from. induction n as [|n IH]; intros from; simpl; constructor; [lia|].
  eapply Forall_impl; [|apply IH]. simpl; intros; lia.
Qed.

Lemma consecutive_sorted (from : Z) (n : nat) :
  StronglySorted Z.lt (consecutive from n).
Proof.
  revert from. induction n as [|n IH]; intros from; simpl; constructor.
  - apply IH.
  - eapply Forall_impl; [|apply consecutive_lower]. simpl; intros; lia.
Qed.

Lemma consecutive_NoDup (from : Z) (n : nat) : NoDup (consecutive from n).
Proof.
  revert from. induction n as [|n IH]; intros from; simpl; constructor.
  - intros Hin. pose proof (consecutive_lower (from + 1) n) as H.
    rewrite Forall_forall in H. apply H in Hin. lia.
  - apply IH.
Qed.

Lemma increment_exact (n : Z) :
  - 9007199254740992 <= n + 1 <= 9007199254740992 -> increment n = n + 1.
Proof.
  intros H. unfold increment, round_double.
  destruct (Z.leb_spec (Z.abs (n + 1)) 9007199254740992); [reflexivity|lia].
Qed.

(** Above 2^53 rounding never brings a number back below 2^53. *)
Lemma round_double_above (z : Z) :
  9007199254740992 <= z -> 9007199254740992 <= round_double z.
Proof.
  intros H. unfold round_double.
  destruct (Z.leb_spec (Z.abs z) 9007199254740992); [exact H|].
  rewrite Z.abs_eq in * by lia. rewrite Z.sgn_pos by lia.
  assert (53 <= Z.log2 z) as Hlog.
  { change 53 with (Z.log2 9007199254740992). apply Z.log2_le_mono. lia. }
  destruct (Z.log2_spec z) as [Hlo _]; [lia|].
  set (e := Z.log2 z - 52) in *.
  assert (0 < 2 ^ e) as Hulp by (apply Z.pow_pos_nonneg; lia).
  assert (2 ^ Z.log2 z = 4503599627370496 * 2 ^ e) as Hsplit.
  { replace (Z.log2 z) with (52 + e) by (unfold e; lia).
    rewrite Z.pow_add_r by lia. reflexivity. }
  assert (2 <= 2 ^ e) as Hulp2.
  { change 2 with (2 ^ 1) at 1. apply Z.pow_le_mono_r; lia. }
  assert (4503599627370496 <= z / 2 ^ e) as Hq.
  { apply Z.div_le_lower_bound; lia. }
  set (q := z / 2 ^ e) in *.
  assert (9007199254740992 <= q * 2 ^ e) by nia.
  assert (q * 2 ^ e <= (q + 1) * 2 ^ e) by nia.
  repeat match goal with |- context [if ?c then _ else _] => destruct c end; lia.
Qed.

Lemma increment_above (n : Z) :
  9007199254740992 <= n -> 9007199254740992 <= increment n.
Proof.
  intros H. apply round_double_above. lia.
Qed.

Lemma assigned_exact (k : nat) (n : Z) :
  - 9007199254740992 <= n + 1 -> n + Z.of_nat k <= 9007199254740992 ->
  assigned n k = consecutive (n + 1) k /\ advanced n k = n + Z.of_nat k.
Proof.
  revert n. induction k as [|k IH]; intros n Hlo Hhi; cbn [assigned advanced consecutive].
  - split; [reflexivity|lia].
  - rewrite increment_exact by lia.
    destruct (IH (n + 1)) as [H1 H2]; [lia|lia|]. rewrite H1, H2. split; [reflexivity|lia].
Qed.

Lemma advanced_above (k : nat) (n : Z) :
  9007199254740992 <= n -> 9007199254740992 <= advanced n k.
Proof.
  revert n. induction k as [|k IH]; intros n H; cbn [advanced]; [exact H|].
  apply IH, increment_above, H.
Qed.

(** A counter that is still below 2^53 has only made exact steps. *)
Lemma below_exact (k : nat) (n : Z) :
  0 <= n -> advanced n k < 9007199254740992 -> n + Z.of_nat k < 9007199254740992.
Proof.
  revert n. induction k as [|k IH]; intros n H0 H; cbn [advanced] in H; [lia|].
  destruct (Z.lt_ge_cases n 9007199254740992) as [Hn|Hn].
  - rewrite increment_exact in H by lia.
    specialize (IH (n + 1)). lia.
  - pose proof (advanced_above k _ (increment_above _ Hn)). lia.
Qed.

(** A run appends the created records, whose ids are the successive values
    of the counter, and nothing else happens to the store. *)
Lemma serve_appends (reqs : list Request) (st : Store) :
  exists news,
    fst (serve reqs st) =
      {| pastes := (pastes st ++ news)%list;
         lastPasteId := advanced (lastPasteId st) (List.length news) |} /\
    created (snd (serve reqs st)) = map paste_value news /\
    List.length (filter is_created (snd (serve reqs st))) = List.length news /\
    map id news = assigned (lastPasteId st) (List.length news).
Proof.
  revert st. induction reqs as [|req reqs IH]; intros st.
  - exists []. simpl. rewrite app_nil_r. destruct st; auto.
  - cbn [serve].
    destruct (handle_step req st) as [(res & -> & Hc)|(newPaste & Hid & ->)].
    + destruct (IH st) as (news & H1 & H2 & H3 & H4).
      destruct (serve reqs st) as [st'' ress]. exists news.
      cbn [fst snd] in *. unfold created in *. cbn [filter]. rewrite Hc.
      auto.
    + destruct (IH (pushed st newPaste)) as (news & H1 & H2 & H3 & H4).
      destruct (serve reqs (pushed st newPaste)) as [st'' ress].
      exists (newPaste :: news).
      cbn [fst snd pushed pastes lastPasteId] in *. unfold created in *.
      cbn [filter is_created created201 statusCode map response_data json lookup
           String.eqb Ascii.eqb Bool.eqb List.length assigned advanced].
      rewrite H1, H2, H3, H4, Hid, <- app_assoc. cbn [List.app].
      repeat split; reflexivity.
Qed.

(** While the counter stays within 2^53 a run counts exactly, and no
    stored id gets above the counter. *)
Lemma serve_exact (reqs : list Request) (st : Store) :
  - 9007199254740992 <= lastPasteId st + 1 ->
  lastPasteId st + Z.of_nat (List.length (filter is_created (snd (serve reqs st))))
    <= 9007199254740992 ->
  exists news,
    pastes (fst (serve reqs st)) = (pastes st ++ news)%list /\
    created (snd (serve reqs st)) = map paste_value news /\
    List.length (filter is_created (snd (serve reqs st))) = List.length news /\
    map id news = consecutive (lastPasteId st + 1) (List.length news) /\
    lastPasteId (fst (serve reqs st)) = lastPasteId st + Z.of_nat (List.length news).
Proof.
  intros Hlo Hhi. destruct (serve_appends reqs st) as (news & H1 & H2 & H3 & H4).
  rewrite H3 in Hhi. destruct (assigned_exact _ _ Hlo Hhi) as [Ha Hb].
  exists news. rewrite H1. cbn [pastes lastPasteId]. rewrite H4, Ha, Hb. auto.
Qed.

Lemma consecutive_upper (from : Z) (n : nat) :
  Forall (fun x => x <= from - 1 + Z.of_nat n) (consecutive from n).
Proof.
  revert from. induction n as [|n IH]; intros from; cbn [consecutive]; constructor; [lia|].
  eapply Forall_impl; [|apply IH]. simpl; intros; lia.
Qed.

Lemma serve_bounded (reqs : list Request) (st : Store) :
  bounded st ->
  - 9007199254740992 <= lastPasteId st + 1 ->
  lastPasteId st + Z.of_nat (List.length (filter is_created (snd (serve reqs st))))
    <= 9007199254740992 ->
  bounded (fst (serve reqs st)).
Proof.
  intros Hb Hlo Hhi.
  destruct (serve_exact reqs st Hlo Hhi) as (news & H1 & _ & _ & Hids & Hlast).
  unfold bounded in *. rewrite H1, Hlast.
  apply Forall_app; split.
  - eapply Forall_impl; [|exact Hb]. simpl; intros; lia.
  - pose proof (consecutive_upper (lastPasteId st + 1) (List.length news)) as H.
    rewrite <- Hids, Forall_map in H.
    eapply Forall_impl; [|exact H]. simpl; intros; lia.
Qed.

Lemma reduce_max_bounds (seed : list Paste) :
  0 <= reduce_max seed /\ forall paste, In paste seed -> id paste <= reduce_max seed.
Proof.
  unfold reduce_max. rewrite reduce_from.
  destruct (fold_max_bounds (map id seed) 0) as [H0 Hall]. split; [exact H0|].
  intros paste Hin. rewrite Forall_forall in Hall. apply Hall, in_map, Hin.
Qed.

(** A store reached from the seed whose counter is below 2^53 has only
    seen exact increments. *)
Lemma reached_below (seed : list Paste) (reqs : list Request) :
  lastPasteId (fst (serve reqs (initial seed))) < 9007199254740992 ->
  bounded (fst (serve reqs (initial seed))).
Proof.
  intros Hlt. destruct (reduce_max_bounds seed) as [H0 _].
  destruct (serve_appends reqs (initial seed)) as (news & H1 & _ & H3 & _).
  rewrite H1 in Hlt. cbn [lastPasteId initial] in Hlt.
  apply below_exact in Hlt; [|exact H0].
  apply serve_bounded; [apply initial_bounded| |]; cbn [initial lastPasteId]; [lia|].
  rewrite H3. lia.
Qed.

Lemma advanced_nonneg (k : nat) (n : Z) : 0 <= n -> 0 <= advanced n k.
Proof.
  revert n. induction k as [|k IH]; intros n H0; cbn [advanced]; [exact H0|].
  apply IH. destruct (Z.lt_ge_cases n 9007199254740992).
  - rewrite increment_exact; lia.
  - pose proof (increment_above n); lia.
Qed.

(** The counter of a store reached from the seed is never negative. *)
Lemma reached_nonneg (seed : list Paste) (reqs : list Request) :
  0 <= lastPasteId (fst (serve reqs (initial seed))).
Proof.
  destruct (serve_appends reqs (initial seed)) as (news & -> & _).
  cbn [lastPasteId initial]. apply advanced_nonneg.
  destruct (reduce_max_bounds seed) as [H0 _]. exact H0.
Qed.

(** *** The lookup as a linear search *)

Lemma search_finds (s : string) (l : list Paste) :
  (exists paste, In paste l /\ Number s = Some (id paste)) ->
  exists foundPaste,
    find (same_id (Some s)) l = Some foundPaste /\
    In foundPaste l /\ Number s = Some (id foundPaste).
Proof.
  intros (paste & Hin & Hn).
  destruct (find (same_id (Some s)) l) as [foundPaste|] eqn:E.
  - exists foundPaste. apply find_some in E. destruct E as [Hin' Hid].
    repeat split; [assumption|]. unfold same_id in Hid.
    destruct (Number s) as [n|]; [|discriminate].
    apply Z.eqb_eq in Hid. congruence.
  - exfalso. pose proof (find_none _ _ E _ Hin) as H.
    unfold same_id in H. rewrite Hn, Z.eqb_refl in H. discriminate.
Qed.

Lemma search_misses (s : string) (l : list Paste) :
  (forall paste, In paste l -> Number s <> Some (id paste)) ->
  find (same_id (Some s)) l = None.
Proof.
  intros H. destruct (find (same_id (Some s)) l) as [foundPaste|] eqn:E; [|reflexivity].
  apply find_some in E. destruct E as [Hin Hid]. exfalso.
  apply (H _ Hin). unfold same_id in Hid.
  destruct (Number s) as [n|]; [|discriminate].
  apply Z.eqb_eq in Hid. congruence.
Qed.

(** The first record with a given id, when the records before it have
    other ids. *)
Lemma search_middle (s : string) (l1 l2 : list Paste) (p : Paste) :
  Number s = Some (id p) ->
  Forall (fun paste => id paste <> id p) l1 ->
  find (same_id (Some s)) (l1 ++ p :: l2) = Some p.
Proof.
  intros Hn.
  assert (forall q, same_id (Some s) q = (id q =? id p)) as Hsame
    by (intros q; unfold same_id; rewrite Hn; reflexivity).
  induction 1 as [|q l1 Hq _ IH]; cbn [List.app find]; rewrite Hsame.
  - rewrite Z.eqb_refl. reflexivity.
  - destruct (Z.eqb_spec (id q) (id p)); [contradiction|exact IH].
Qed.


(** *** The claims *)

(** C1, on the code: [GET /unknown/path] is matched by no route, the
    not-found handler signals the string "Not found: /unknown/path", and
    the error handler, which finds neither [status] nor [message] on a
    string, answers 500 with the default message, not 404 with that
    string. *)
Theorem unknown_path_answers_500 (st : Store) :
  let req := get_request "/unknown/path" ["unknown"; "path"] in
  pasteId_param req = None /\ at_pastes req = false /\
  notFound [] req st = (st, NextErr (SigText "Not found: /unknown/path")) /\
  handle req st = (st, Some (failure 500 "Something went wrong!")) /\
  handle req st <> (st, Some (failure 404 "Not found: /unknown/path")).
Proof.
  cbv zeta. repeat split; try reflexivity. discriminate.
Qed.

(** C2, as the code has it: on [GET /pastes/:pasteId] Express first decodes
    the captured segment.  When it decodes, with [pasteId] the decoded
    parameter: if some stored paste has the id that [Number(pasteId)]
    gives, the first such paste of the store is sent as
    [{data: foundPaste}] with status 200 and the store is left as it was;
    if none has, the answer is 404 with
    [{error: "Paste id not found: <pasteId>"}].  When the segment does not
    decode, the lookup does not run and the answer is 400 with
    [{error: "Failed to decode param '<segment>'"}]. *)
Theorem get_paste_by_id (req : Request) (st : Store) (raw : string) :
  method req = GET ->
  paste_segment req = Some raw ->
  match decodeURIComponent raw with
  | Some pasteId =>
      ((exists paste, In paste (pastes st) /\ Number pasteId = Some (id paste)) ->
       exists foundPaste,
         find (same_id (Some pasteId)) (pastes st) = Some foundPaste /\
         In foundPaste (pastes st) /\ Number pasteId = Some (id foundPaste) /\
         handle req st = (st, Some (ok (paste_value foundPaste)))) /\
      ((forall paste, In paste (pastes st) -> Number pasteId <> Some (id paste)) ->
       handle req st = (st, Some (failure 404 ("Paste id not found: " ++ pasteId))))
  | None =>
      handle req st = (st, Some (failure 400 ("Failed to decode param '" ++ raw ++ "'")))
  end.
Proof.
  intros _ Hr. destruct (decodeURIComponent raw) as [pasteId|] eqn:Hd.
  - assert (pasteId_param req = Some pasteId) as Hp
      by (unfold pasteId_param; rewrite Hr; exact Hd).
    rewrite (handle_paste _ _ _ Hp). split.
    + intros Hex. destruct (search_finds _ _ Hex) as (foundPaste & Hf & Hin & Hn).
      exists foundPaste. rewrite Hf. auto.
    + intros Hno. rewrite (search_misses _ _ Hno). reflexivity.
  - apply handle_bad_param; assumption.
Qed.

(** C3, on the code: [POST /pastes] with body [{data: null}] has no truthy
    [data.text], yet the destructuring pattern throws (its default covers
    [undefined] only) and the answer is 500 with the engine's message, not
    400 with "A 'text' property is required.". *)
Theorem null_data_answers_500 (st : Store) :
  let req := post_request "/pastes" ["pastes"] (VObj [("data", VNull)]) in
  bodyHasTextProperty [] req st = (st, NextErr (SigThrown (type_error_message "text"))) /\
  handle req st = (st, Some (failure 500 (type_error_message "text"))) /\
  handle req st <> (st, Some (failure 400 "A 'text' property is required.")).
Proof.
  cbv zeta. repeat split; try reflexivity. discriminate.
Qed.

(** X6: the validator on a body whose [data] is absent or is anything but
    [null]: without a truthy [data.text] nothing is stored and the answer
    is 400 with "A 'text' property is required.". *)
Lemma missing_text_answers_400 (req : Request) (st : Store) (data : value) :
  method req = POST -> at_pastes req = true ->
  body_data (body req) = Ok data -> data <> VNull ->
  truthy (field data "text") = false ->
  handle req st = (st, Some (failure 400 "A 'text' property is required.")).
Proof.
  intros Hm Hp Hd Hnull Ht. rewrite (handle_post _ _ Hp Hm), Hd. cbn [bind].
  assert (data <> VUndefined) as Hundef.
  { intros ->. unfold body_data in Hd.
    destruct (property (body req) "data") as [d|]; [|discriminate].
    destruct d; discriminate. }
  destruct data; try contradiction; cbn [property bind]; try reflexivity.
  cbn [field] in Ht. rewrite Ht. reflexivity.
Qed.

(** C4, as the code has it: along any run that keeps the counter within
    2^53 (the largest value up to which a JavaScript number counts in
    steps of one), the ids of the records created are consecutive
    integers, hence distinct and strictly increasing; the first is one
    more than the larger of 0 and the maximum seeded id (so seed-max + 1
    when some seeded id is not negative, and 1 over an empty seed), each
    next one is the previous plus one. *)
Theorem created_ids_consecutive (seed : list Paste) (reqs : list Request) :
  let rs := snd (serve reqs (initial seed)) in
  let floor := match seed_max seed with
               | Some m => Z.max 0 m
               | None => 0
               end in
  floor + Z.of_nat (List.length (created rs)) <= 9007199254740992 ->
  let ids := consecutive (floor + 1) (List.length (created rs)) in
  map id_of (created rs) = map VNum ids /\
  StronglySorted Z.lt ids /\ NoDup ids.
Proof.
  cbv zeta. rewrite <- reduce_max_floor. intros Hhi.
  destruct (reduce_max_bounds seed) as [H0 _].
  destruct (serve_exact reqs (initial seed)) as (news & _ & Hc & _ & Hids & _).
  - cbn [initial lastPasteId]. lia.
  - unfold created in Hhi. rewrite length_map in Hhi. exact Hhi.
  - split; [|split; [apply consecutive_sorted|apply consecutive_NoDup]].
    rewrite Hc, length_map. cbn [initial lastPasteId] in Hids.
    rewrite <- Hids, !map_map. reflexivity.
Qed.

(** C5, as the code has it: after any run that has left the counter below
    2^53, a [POST /pastes] whose [data.text] is truthy is answered 201
    with [{data: newRecord}], where [newRecord.text] is the submitted
    text and [newRecord.id] is the counter plus one, an integer no stored
    record has; and after any further requests, [GET /pastes/<id>] for a
    spelling of that id is answered 200 with the same record. *)
Theorem create_then_fetch (seed : list Paste) (before after : list Request)
    (req fetch : Request) (data : value) (s : string) :
  method req = POST -> at_pastes req = true ->
  body_data (body req) = Ok data -> truthy (field data "text") = true ->
  method fetch = GET -> pasteId_param fetch = Some s ->
  let st := fst (serve before (initial seed)) in
  lastPasteId st < 9007199254740992 ->
  let newRecord := new_paste data (increment (lastPasteId st)) in
  Number s = Some (id newRecord) ->
  handle req st = (pushed st newRecord, Some (created201 (paste_value newRecord))) /\
  text newRecord = field data "text" /\
  id newRecord = lastPasteId st + 1 /\
  ~ In (id newRecord) (map id (pastes st)) /\
  let st' := fst (serve after (pushed st newRecord)) in
  handle fetch st' = (st', Some (ok (paste_value newRecord))).
Proof.
  intros Hm Hp Hd Ht _ Hs st Hlt newRecord Hn.
  assert (bounded st) as Hb by (apply reached_below; exact Hlt).
  assert (0 <= lastPasteId st) as H0 by apply reached_nonneg.
  assert (id newRecord = lastPasteId st + 1) as Hid
    by (cbn [newRecord new_paste id]; apply increment_exact; lia).
  assert (Forall (fun paste => id paste <> id newRecord) (pastes st)) as Hfresh.
  { eapply Forall_impl; [|exact Hb]. cbn beta. intros; lia. }
  split; [|split; [reflexivity|split; [exact Hid|split]]].
  - rewrite (handle_post _ _ Hp Hm), Hd. cbn [bind].
    destruct data; try discriminate Ht. cbn [property bind].
    cbn [field] in Ht. rewrite Ht. reflexivity.
  - rewrite in_map_iff. intros (paste & Hid' & Hin).
    rewrite Forall_forall in Hfresh. exact (Hfresh _ Hin Hid').
  - cbv zeta. rewrite (handle_paste _ _ _ Hs).
    destruct (serve_appends after (pushed st newRecord)) as (news & -> & _).
    cbn [pastes pushed]. rewrite <- app_assoc. cbn [List.app].
    rewrite (search_middle _ _ _ _ Hn Hfresh). reflexivity.
Qed.

(** C6: a signalled plain string, or an object with neither [status] nor
    [message], is answered 500 with [{error: "Something went wrong!"}]; an
    object that carries both is answered with its [status] and with its
    [message] as the error string; a thrown error is answered 500 with its
    own message. *)
Theorem error_responder (req : Request) (st : Store) :
  (forall s, dispatch app (Some (SigText s)) req st =
             (st, Some (failure 500 "Something went wrong!"))) /\
  (forall fields,
     lookup "status" fields = VUndefined -> lookup "message" fields = VUndefined ->
     dispatch app (Some (SigObject fields)) req st =
     (st, Some (failure 500 "Something went wrong!"))) /\
  (forall fields status message,
     lookup "status" fields = status -> status <> VUndefined ->
     lookup "message" fields = message -> message <> VUndefined ->
     dispatch app (Some (SigObject fields)) req st =
     (st, Some {| statusCode := status; json := VObj [("error", message)] |})) /\
  (forall m, dispatch app (Some (SigThrown m)) req st = (st, Some (failure 500 m))).
Proof.
  repeat split; intros; rewrite dispatch_error; cbn [signal_prop]; try reflexivity.
  - rewrite H, H0. reflexivity.
  - rewrite H, H1. destruct status; destruct message; try contradiction; reflexivity.
Qed.

(** C7: after any run, [GET /pastes] is answered 200 with [{data: [...]}]
    holding every stored record: the seeded ones in seed order, then the
    created ones in creation order, nothing left out. *)
Theorem list_in_insertion_order (seed : list Paste) (reqs : list Request)
    (req : Request) :
  method req = GET -> at_pastes req = true ->
  let st := fst (serve reqs (initial seed)) in
  let rs := snd (serve reqs (initial seed)) in
  handle req st =
    (st, Some (ok (VArr (map paste_value seed ++ created rs)%list))).
Proof.
  intros Hm Hp st rs. subst st rs.
  rewrite handle_list; [|assumption|rewrite Hm; reflexivity].
  destruct (serve_appends reqs (initial seed)) as (news & -> & -> & _).
  cbn [pastes initial]. rewrite map_app. reflexivity.
Qed.

(** C8: [GET /pastes] leaves the store as it was, so two calls in a row
    get the same answer; the array it returns has as many elements as
    there are seeded records plus 201 responses so far. *)
Theorem list_is_idempotent (seed : list Paste) (reqs : list Request)
    (req : Request) :
  method req = GET -> at_pastes req = true ->
  let st := fst (serve reqs (initial seed)) in
  let rs := snd (serve reqs (initial seed)) in
  exists records,
    handle req st = (st, Some (ok (VArr records))) /\
    serve [req; req] st = (st, [Some (ok (VArr records)); Some (ok (VArr records))]) /\
    List.length records = (List.length seed + List.length (filter is_created rs))%nat.
Proof.
  intros Hm Hp st rs.
  assert (handle req st = (st, Some (ok (VArr (map paste_value (pastes st)))))) as H
    by (apply handle_list; [assumption|rewrite Hm; reflexivity]).
  exists (map paste_value (pastes st)). split; [exact H|split].
  - cbn [serve]. rewrite H, H. reflexivity.
  - subst st rs.
    destruct (serve_appends reqs (initial seed)) as (news & -> & _ & -> & _).
    cbn [pastes initial]. rewrite length_map, length_app. reflexivity.
Qed.

(** C9: the lookup answers under [/pastes/:pasteId] for every method: when
    some stored paste has the id that [Number(pasteId)] gives, the answer
    is 200 with [{data: foundPaste}], the first such paste. *)
Theorem lookup_for_every_method (m : Method) (url : string) (p : list string)
    (b : value) (st : Store) (pasteId : string) :
  let req := {| method := m; originalUrl := url; path := p; body := b |} in
  pasteId_param req = Some pasteId ->
  (exists paste, In paste (pastes st) /\ Number pasteId = Some (id paste)) ->
  exists foundPaste,
    find (same_id (Some pasteId)) (pastes st) = Some foundPaste /\
    Number pasteId = Some (id foundPaste) /\
    handle req st = (st, Some (ok (paste_value foundPaste))).
Proof.
  intros req Hp Hex. rewrite (handle_paste _ _ _ Hp).
  destruct (search_finds _ _ Hex) as (foundPaste & Hf & _ & Hn).
  exists foundPaste. rewrite Hf. auto.
Qed.

(** C10: a creation pushes one record whose properties are exactly [id],
    [name], [syntax], [exposure], [expiration], [text] and [user_id], the
    last six read from [data]; whatever else [data] holds has no effect on
    the store; the records stored before are still there, unchanged and in
    the same places. *)
Theorem create_keeps_seven_fields (req : Request) (st : Store) (data : value) :
  method req = POST -> at_pastes req = true ->
  body_data (body req) = Ok data -> truthy (field data "text") = true ->
  let newPaste := new_paste data (increment (lastPasteId st)) in
  pastes (fst (handle req st)) = (pastes st ++ [newPaste])%list /\
  paste_value newPaste =
    VObj [("id", VNum (increment (lastPasteId st))); ("name", field data "name");
          ("syntax", field data "syntax"); ("exposure", field data "exposure");
          ("expiration", field data "expiration"); ("text", field data "text");
          ("user_id", field data "user_id")] /\
  (forall req' data',
     method req' = POST -> at_pastes req' = true ->
     body_data (body req') = Ok data' ->
     (forall k, In k copied -> field data' k = field data k) ->
     fst (handle req' st) = fst (handle req st)).
Proof.
  intros Hm Hp Hd Ht newPaste.
  assert (forall r d, method r = POST -> at_pastes r = true ->
            body_data (body r) = Ok d -> truthy (field d "text") = true ->
            fst (handle r st) = pushed st (new_paste d (increment (lastPasteId st)))) as Hpush.
  { intros r d Hm' Hp' Hd' Ht'. rewrite (handle_post _ _ Hp' Hm'), Hd'. cbn [bind].
    destruct d; try discriminate Ht'. cbn [property bind].
    cbn [field] in Ht'. rewrite Ht'. reflexivity. }
  split; [|split].
  - rewrite (Hpush _ _ Hm Hp Hd Ht). reflexivity.
  - reflexivity.
  - intros req' data' Hm' Hp' Hd' Hsame.
    rewrite (Hpush _ _ Hm Hp Hd Ht), (Hpush _ _ Hm' Hp' Hd').
    + unfold new_paste. f_equal. f_equal; apply Hsame; unfold copied; simpl; tauto.
    + rewrite Hsame by (unfold copied; simpl; tauto). exact Ht.
Qed.

End Properties.

(** ** Worked requests on the example platform *)

Example empty_data_answers_400 :
  snd (handle (platform := node)
         (post_request "/pastes" ["pastes"] (VObj [("data", VObj [])])) (initial seed3)) =
  Some (failure 400 "A 'text' property is required.").
Proof. reflexivity. Qed.

Example no_data_answers_400 :
  snd (handle (platform := node)
         (post_request "/pastes" ["pastes"] (VObj [])) (initial seed3)) =
  Some (failure 400 "A 'text' property is required.").
Proof. reflexivity. Qed.

Example empty_seed_starts_at_1 :
  seed_max [] = None /\
  map id_of (created (snd (serve (platform := node) [post_hello; post_hello] (initial [])))) =
  [VNum 1; VNum 2].
Proof. split; reflexivity. Qed.

(** C2 as the spec words it fails on a segment that does not decode:
    [GET /pastes/%zz] is under [/pastes/:pasteId], no stored paste has such
    an id, and the answer is Express's 400, not the 404 of the lookup. *)
Lemma malformed_segment_answers_400 :
  let req := get_request "/pastes/%zz" ["pastes"; "%zz"] in
  let st := initial seed3 in
  method req = GET /\ paste_segment req = Some "%zz" /\
  decodeURIComponent (Platform := node) "%zz" = None /\
  (forall paste, In paste (pastes st) ->
                 Number (Platform := node) "%zz" <> Some (id paste)) /\
  handle (platform := node) req st =
    (st, Some (failure 400 "Failed to decode param '%zz'")) /\
  handle (platform := node) req st <>
    (st, Some (failure 404 "Paste id not found: %zz")).
Proof.
  cbv zeta. repeat split; try reflexivity; discriminate.
Qed.

(** C4 as the spec words it fails in two ways.  When every seeded id is
    negative, the seeded maximum is -5, and the first created id is 1 and
    not -5 + 1.  When the seeded maximum is 2^53 - 1, the first created id
    is 2^53 and so is the second: not distinct, not increasing. *)
Lemma seed_max_plus_one_fails :
  (let seed := [paste_of (-5) "old"] in
   let rs := snd (serve (platform := node) [post_hello] (initial seed)) in
   seed_max seed = Some (-5) /\
   nth_error (map id_of (created rs)) 0 = Some (VNum 1) /\
   nth_error (map id_of (created rs)) 0 <> Some (VNum (-5 + 1))) /\
  (let seed := [paste_of 9007199254740991 "old"] in
   let rs := snd (serve (platform := node) [post_hello; post_hello] (initial seed)) in
   seed_max seed = Some 9007199254740991 /\
   map id_of (created rs) = [VNum 9007199254740992; VNum 9007199254740992] /\
   nth_error (map id_of (created rs)) 1 <> Some (VNum (9007199254740992 + 1))).
Proof.
  cbv zeta. repeat split; try reflexivity; discriminate.
Qed.

(** C5 as the spec words it fails once the counter is at 2^53: the new
    record is given 2^53 again, the id of a record already stored, and
    [GET /pastes/9007199254740992] returns the older record, not the new
    one. *)
Lemma reused_id_is_not_retrievable :
  let st := initial [paste_of 9007199254740992 "old"] in
  let newRecord := paste_of 9007199254740992 "hello" in
  let st' := pushed st newRecord in
  let fetch := get_request "/pastes/9007199254740992" ["pastes"; "9007199254740992"] in
  handle (platform := node) post_hello st =
    (st', Some (created201 (paste_value newRecord))) /\
  In (id newRecord) (map id (pastes st)) /\
  handle (platform := node) fetch st' =
    (st', Some (ok (paste_value (paste_of 9007199254740992 "old")))) /\
  handle (platform := node) fetch st' <> (st', Some (ok (paste_value newRecord))).
Proof.
  cbv zeta. repeat split; try reflexivity.
  - simpl. tauto.
  - discriminate.
Qed.

Lemma get_paste_by_id_witness :
  let req := get_request "/pastes/%33" ["pastes"; "%33"] in
  let st := initial seed3 in
  method req = GET /\ paste_segment req = Some "%33" /\
  decodeURIComponent (Platform := node) "%33" = Some "3" /\
  exists foundPaste,
    find (same_id (platform := node) (Some "3")) (pastes st) = Some foundPaste /\
    In foundPaste (pastes st) /\ Number (Platform := node) "3" = Some (id foundPaste) /\
    handle (platform := node) req st = (st, Some (ok (paste_value foundPaste))).
Proof.
  cbv zeta. split; [reflexivity|split; [reflexivity|split; [reflexivity|]]].
  apply (proj1 (get_paste_by_id (platform := node)
                  (get_request "/pastes/%33" ["pastes"; "%33"]) (initial seed3) "%33"
                  eq_refl eq_refl)).
  exists (paste_of 3 "three"). split; [simpl; tauto|reflexivity].
Defined.

Lemma created_ids_consecutive_witness :
  let rs := snd (serve (platform := node) [post_hello; post_hello] (initial seed3)) in
  3 + Z.of_nat (List.length (created rs)) <= 9007199254740992 /\
  map id_of (created rs) = [VNum 4; VNum 5] /\
  StronglySorted Z.lt [4; 5] /\ NoDup [4; 5].
Proof.
  cbv zeta. split; [vm_compute; discriminate|].
  apply (created_ids_consecutive (platform := node) seed3 [post_hello; post_hello]).
  vm_compute; discriminate.
Defined.

Lemma create_then_fetch_witness :
  let st := initial seed3 in
  let newRecord := paste_of 4 "hello" in
  let st' := fst (serve (platform := node) [post_hello] (pushed st newRecord)) in
  lastPasteId st < 9007199254740992 /\
  handle (platform := node) post_hello st =
    (pushed st newRecord, Some (created201 (paste_value newRecord))) /\
  ~ In 4 (map id (pastes st)) /\
  handle (platform := node) (get_request "/pastes/4" ["pastes"; "4"]) st' =
    (st', Some (ok (paste_value newRecord))).
Proof.
  cbv zeta.
  destruct (create_then_fetch (platform := node) seed3 [] [post_hello] post_hello
              (get_request "/pastes/4" ["pastes"; "4"])
              (VObj [("text", VStr "hello")]) "4"
              eq_refl eq_refl eq_refl eq_refl eq_refl eq_refl eq_refl eq_refl)
    as (H1 & _ & _ & H3 & H4).
  split; [reflexivity|split; [exact H1|split; [exact H3|exact H4]]].
Defined.

Lemma error_responder_witness :
  let req := get_request "/pastes/9" ["pastes"; "9"] in
  let st := initial seed3 in
  dispatch (platform := node) (app (platform := node))
    (Some (SigObject [("status", VNum 404); ("message", VStr "Paste id not found: 9")]))
    req st = (st, Some (failure 404 "Paste id not found: 9")) /\
  dispatch (platform := node) (app (platform := node)) (Some (SigObject [])) req st =
    (st, Some (failure 500 "Something went wrong!")).
Proof.
  cbv zeta.
  destruct (error_responder (platform := node)
              (get_request "/pastes/9" ["pastes"; "9"]) (initial seed3))
    as (_ & H2 & H3 & _).
  split.
  - apply (H3 _ (VNum 404) (VStr "Paste id not found: 9"));
      [reflexivity|discriminate|reflexivity|discriminate].
  - apply H2; reflexivity.
Defined.

Lemma list_in_insertion_order_witness :
  let req := get_request "/pastes" ["pastes"] in
  let st := fst (serve (platform := node) [post_hello] (initial seed3)) in
  method req = GET /\ at_pastes req = true /\
  handle (platform := node) req st =
    (st, Some (ok (VArr (map paste_value (seed3 ++ [paste_of 4 "hello"])%list)))).
Proof.
  cbv zeta. split; [reflexivity|split; [reflexivity|]].
  exact (list_in_insertion_order (platform := node) seed3 [post_hello]
           (get_request "/pastes" ["pastes"]) eq_refl eq_refl).
Defined.

Lemma list_is_idempotent_witness :
  let req := get_request "/pastes" ["pastes"] in
  let st := fst (serve (platform := node) [post_hello] (initial seed3)) in
  method req = GET /\ at_pastes req = true /\
  exists records,
    handle (platform := node) req st = (st, Some (ok (VArr records))) /\
    serve (platform := node) [req; req] st =
      (st, [Some (ok (VArr records)); Some (ok (VArr records))]) /\
    List.length records = 4%nat.
Proof.
  cbv zeta. split; [reflexivity|split; [reflexivity|]].
  exact (list_is_idempotent (platform := node) seed3 [post_hello]
           (get_request "/pastes" ["pastes"]) eq_refl eq_refl).
Defined.

Lemma lookup_for_every_method_witness :
  let req := {| method := DELETE; originalUrl := "/pastes/2"; path := ["pastes"; "2"];
                body := VObj [] |} in
  let st := initial seed3 in
  pasteId_param (platform := node) req = Some "2" /\
  exists foundPaste,
    find (same_id (platform := node) (Some "2")) (pastes st) = Some foundPaste /\
    Number (Platform := node) "2" = Some (id foundPaste) /\
    handle (platform := node) req st = (st, Some (ok (paste_value foundPaste))).
Proof.
  cbv zeta. split; [reflexivity|].
  apply (lookup_for_every_method (platform := node) DELETE "/pastes/2" ["pastes"; "2"]
           (VObj []) (initial seed3) "2" eq_refl).
  exists (paste_of 2 "two"). split; [simpl; tauto|reflexivity].
Defined.

Lemma create_keeps_seven_fields_witness :
  let data := VObj [("text", VStr "hello"); ("colour", VStr "red")] in
  let req := post_request "/pastes" ["pastes"] (VObj [("data", data)]) in
  let st := initial seed3 in
  method req = POST /\ at_pastes req = true /\
  pastes (fst (handle (platform := node) req st)) = (seed3 ++ [paste_of 4 "hello"])%list /\
  fst (handle (platform := node) post_hello st) = fst (handle (platform := node) req st).
Proof.
  cbv zeta. split; [reflexivity|split; [reflexivity|]].
  destruct (create_keeps_seven_fields (platform := node)
              (post_request "/pastes" ["pastes"]
                 (VObj [("data", VObj [("text", VStr "hello"); ("colour", VStr "red")])]))
              (initial seed3)
              (VObj [("text", VStr "hello"); ("colour", VStr "red")])
              eq_refl eq_refl eq_refl eq_refl) as (H1 & _ & H3).
  split; [exact H1|].
  apply (H3 post_hello (VObj [("text", VStr "hello")]) eq_refl eq_refl eq_refl).
  intros k Hk. unfold copied in Hk. simpl in Hk.
  repeat (destruct Hk as [<-|Hk]; [reflexivity|]). destruct Hk.
Defined.

(** ** Further properties of the handlers *)

Section Behaviour.
Context {platform : Platform}.

(** *** Helpers *)

Lemma fold_max_attained (l : list Z) (a : Z) :
  fold_left Z.max l a = a \/ In (fold_left Z.max l a) l.
Proof.
  revert a. induction l as [|x l IH]; intros a; simpl; [left; reflexivity|].
  destruct (IH (Z.max a x)) as [H|H]; [|right; right; exact H].
  rewrite H. destruct (Z.max_spec a x) as [[_ ->]|[_ ->]]; auto.
Qed.

Lemma consecutive_above (from : Z) (n : nat) (x : Z) :
  In x (consecutive from n) -> from <= x.
Proof.
  pose proof (consecutive_lower from n) as H. rewrite Forall_forall in H. apply H.
Qed.

(** Ids stay pairwise distinct along a run that starts from distinct ids
    below the counter and keeps the counter within 2^53. *)
Lemma serve_unique (reqs : list Request) (st : Store) :
  bounded st -> NoDup (map id (pastes st)) ->
  - 9007199254740992 <= lastPasteId st + 1 ->
  lastPasteId st + Z.of_nat (List.length (filter is_created (snd (serve reqs st))))
    <= 9007199254740992 ->
  NoDup (map id (pastes (fst (serve reqs st)))).
Proof.
  intros Hb Hu Hlo Hhi.
  destruct (serve_exact reqs st Hlo Hhi) as (news & -> & _ & _ & Hids & _).
  rewrite map_app, Hids.
  apply NoDup_app; [exact Hu|apply consecutive_NoDup|].
  intros x Hx Hc. apply consecutive_above in Hc.
  unfold bounded in Hb. rewrite Forall_forall in Hb.
  apply in_map_iff in Hx. destruct Hx as (p & <- & Hp). apply Hb in Hp. lia.
Qed.

Lemma same_id_same_paste (l : list Paste) (p q : Paste) :
  NoDup (map id l) -> In p l -> In q l -> id p = id q -> p = q.
Proof.
  induction l as [|a l IH]; simpl; intros Hu Hp Hq Hid; [contradiction|].
  inversion Hu as [|? ? Hn Hu']; subst.
  destruct Hp as [->|Hp], Hq as [->|Hq]; auto.
  - exfalso. apply Hn. rewrite Hid. apply in_map. exact Hq.
  - exfalso. apply Hn. rewrite <- Hid. apply in_map. exact Hp.
Qed.

(** *** One request *)

(** X1: the application answers every request itself (Express's final
    handler is never reached).  A request that [express.json()] passes on
    is answered with one of the statuses 200, 201, 400, 404 and 500; an
    error signalled by [express.json()] is answered by the error handler
    with the status and the message of that error (500 and the default
    message for what the error lacks), and the store is left as it was. *)
Theorem every_request_is_answered (i : Incoming) (st : Store) :
  exists res,
    snd (receive i st) = Some res /\
    match i with
    | Parsed req =>
        In (statusCode res) [VNum 200; VNum 201; VNum 400; VNum 404; VNum 500]
    | Unparsed req error =>
        fst (receive i st) = st /\
        statusCode res = default (VNum 500) (lookup "status" error) /\
        json res = VObj [("error", default (VStr "Something went wrong!")
                                     (lookup "message" error))]
    end.
Proof.
  destruct i as [req|req error]; cbn [receive].
  - destruct (route_cases req)
      as [[s Hs]|[(raw & Hr & Hd)|[(Hn & Hp & Hm)|[(Hn & Hp & Hm)|(Hn & Hr)]]]].
    + rewrite (handle_paste _ _ _ Hs).
      destruct (find _ _); eexists; (split; [reflexivity|]); cbn; tauto.
    + rewrite (handle_bad_param _ _ _ Hr Hd). eexists; split; [reflexivity|]. cbn; tauto.
    + rewrite (handle_list _ _ Hp Hm). eexists; split; [reflexivity|]. cbn; tauto.
    + rewrite (handle_post _ _ Hp Hm).
      destruct (bind _ _) as [[data t]|m];
        [destruct (truthy t)|]; eexists; (split; [reflexivity|]); cbn; tauto.
    + rewrite (handle_unmatched _ _ Hn Hr). eexists; split; [reflexivity|]. cbn; tauto.
  - rewrite dispatch_error. eexists; split; [reflexivity|]. cbn. auto.
Qed.

(** X2: a request whose answer is not 201 leaves the array and the counter
    exactly as they were; a request answered 201 has incremented the
    counter once ([++lastPasteId], a double), pushed one record whose id
    is the new value of the counter, and sent that record. *)
Theorem only_a_creation_changes_the_store (req : Request) (st : Store) :
  (is_created (snd (handle req st)) = false -> fst (handle req st) = st) /\
  (is_created (snd (handle req st)) = true ->
   exists newPaste,
     id newPaste = increment (lastPasteId st) /\
     fst (handle req st) =
       {| pastes := (pastes st ++ [newPaste])%list;
          lastPasteId := increment (lastPasteId st) |} /\
     snd (handle req st) = Some (created201 (paste_value newPaste))).
Proof.
  destruct (handle_step req st) as [(res & -> & Hc)|(newPaste & Hid & ->)];
    cbn [fst snd]; split; intros H.
  - reflexivity.
  - congruence.
  - discriminate H.
  - exists newPaste. auto.
Qed.

(** X3: a request that is neither under [/pastes/:pasteId] nor a GET, HEAD
    or POST on [/pastes] (another path, or PUT, PATCH, DELETE or OPTIONS
    on [/pastes]) changes nothing and is answered 500 with
    [{error: "Something went wrong!"}]. *)
Theorem other_requests_answer_500 (req : Request) (st : Store) :
  paste_segment req = None ->
  at_pastes req = false \/ In (method req) [PUT; PATCH; DELETE; OPTIONS] ->
  handle req st = (st, Some (failure 500 "Something went wrong!")).
Proof.
  intros Hn Hr. apply handle_unmatched; [exact Hn|].
  destruct Hr as [Hr|Hr]; [left; exact Hr|right].
  cbn in Hr. destruct Hr as [<-|[<-|[<-|[<-|[]]]]]; reflexivity.
Qed.

(** X4: under [/pastes/:pasteId] nothing is ever created, whatever the
    method and the body (a POST with a valid body included): the store is
    left as it was.  When the captured segment decodes to [s], the answer
    is either 200 with a stored paste whose id is [Number(s)], or 404 with
    [s] in the message; when it does not decode, the answer is 400 with
    the raw segment in the message. *)
Theorem paste_route_never_creates (req : Request) (st : Store) (raw : string) :
  paste_segment req = Some raw ->
  fst (handle req st) = st /\
  match decodeURIComponent raw with
  | Some s =>
      (exists foundPaste,
         In foundPaste (pastes st) /\ Number s = Some (id foundPaste) /\
         snd (handle req st) = Some (ok (paste_value foundPaste))) \/
      ((forall paste, In paste (pastes st) -> Number s <> Some (id paste)) /\
       snd (handle req st) = Some (failure 404 ("Paste id not found: " ++ s)))
  | None =>
      snd (handle req st) = Some (failure 400 ("Failed to decode param '" ++ raw ++ "'"))
  end.
Proof.
  intros Hr. destruct (decodeURIComponent raw) as [s|] eqn:Hd.
  - assert (pasteId_param req = Some s) as Hs
      by (unfold pasteId_param; rewrite Hr; exact Hd).
    rewrite (handle_paste _ _ _ Hs).
    destruct (find (same_id (Some s)) (pastes st)) as [foundPaste|] eqn:E; cbn [fst snd].
    + split; [reflexivity|left]. exists foundPaste.
      apply find_some in E. destruct E as [Hin Hid]. unfold same_id in Hid.
      destruct (Number s) as [n|]; [|discriminate]. apply Z.eqb_eq in Hid.
      subst n. auto.
    + split; [reflexivity|right]. split; [|reflexivity].
      intros paste Hin Hn. pose proof (find_none _ _ E _ Hin) as H.
      unfold same_id in H. rewrite Hn, Z.eqb_refl in H. discriminate.
  - rewrite (handle_bad_param _ _ _ Hr Hd). split; reflexivity.
Qed.

(** X5: the lookup is mounted on a prefix: any path that starts with
    [/pastes/<segment>] (the literal compared without regard to case, the
    segment not empty) is decided by the search for [Number] of the
    decoded segment, whatever follows and whatever the method; a segment
    that does not decode is answered 400. *)
Theorem lookup_covers_deeper_paths (m : Method) (url p seg : string)
    (rest : list string) (b : value) (st : Store) :
  lower p = "pastes" -> seg <> "" ->
  handle {| method := m; originalUrl := url; path := p :: seg :: rest; body := b |} st =
    match decodeURIComponent seg with
    | Some s =>
        match find (same_id (Some s)) (pastes st) with
        | Some foundPaste => (st, Some (ok (paste_value foundPaste)))
        | None => (st, Some (failure 404 ("Paste id not found: " ++ s)))
        end
    | None => (st, Some (failure 400 ("Failed to decode param '" ++ seg ++ "'")))
    end.
Proof.
  intros Hp Hs.
  assert (paste_segment {| method := m; originalUrl := url; path := p :: seg :: rest;
                           body := b |} = Some seg) as Hseg.
  { unfold paste_segment. cbn [path match_prefix segment_match].
    replace (String.eqb (lower "pastes") (lower p)) with true
      by (rewrite Hp; reflexivity).
    destruct (String.eqb_spec seg ""); [contradiction|]. reflexivity. }
  destruct (decodeURIComponent seg) as [s|] eqn:Hd.
  - apply handle_paste. unfold pasteId_param. rewrite Hseg. exact Hd.
  - apply handle_bad_param; assumption.
Qed.

(** X7: when the pattern of the validator throws, because [req.body] is
    [null] or [undefined] or because [data] is [null], nothing is stored
    and the answer is 500 with the message of the [TypeError]. *)
Theorem destructuring_failure_answers_500 (req : Request) (st : Store) :
  method req = POST -> at_pastes req = true ->
  ((body req = VNull \/ body req = VUndefined) ->
   handle req st = (st, Some (failure 500 (type_error_message "data")))) /\
  (forall fields,
     body req = VObj fields -> lookup "data" fields = VNull ->
     handle req st = (st, Some (failure 500 (type_error_message "text")))).
Proof.
  intros Hm Hp. split.
  - intros [H|H]; rewrite (handle_post _ _ Hp Hm), H; reflexivity.
  - intros fields H Hd. rewrite (handle_post _ _ Hp Hm), H.
    unfold body_data. cbn [property bind]. rewrite Hd. reflexivity.
Qed.

(** X8: the error handler takes each of the two properties on its own: a
    signalled object with a [status] but no [message] is answered with
    that status and the default message, one with a [message] but no
    [status] is answered 500 with that message; a property that is present
    is used whatever it is, [null] included. *)
Theorem error_defaults_are_per_field (fields : list (string * value))
    (req : Request) (st : Store) :
  (forall status,
     lookup "status" fields = status -> status <> VUndefined ->
     lookup "message" fields = VUndefined ->
     dispatch app (Some (SigObject fields)) req st =
     (st, Some {| statusCode := status;
                  json := VObj [("error", VStr "Something went wrong!")] |})) /\
  (forall message,
     lookup "status" fields = VUndefined ->
     lookup "message" fields = message -> message <> VUndefined ->
     dispatch app (Some (SigObject fields)) req st =
     (st, Some {| statusCode := VNum 500; json := VObj [("error", message)] |})).
Proof.
  split; intros v H1 H2 H3; rewrite dispatch_error; cbn [signal_prop].
  - rewrite H1, H3. destruct v; try contradiction; reflexivity.
  - rewrite H1, H2. destruct v; try contradiction; reflexivity.
Qed.

(** *** The counter and the array along a run *)

(** X9: the counter computed at load time is never negative, is at least
    every seeded id, and is either 0 or the id of a seeded record. *)
Theorem initial_counter_bounds (seed : list Paste) :
  0 <= lastPasteId (initial seed) /\
  (forall paste, In paste seed -> id paste <= lastPasteId (initial seed)) /\
  (lastPasteId (initial seed) = 0 \/
   exists paste, In paste seed /\ id paste = lastPasteId (initial seed)).
Proof.
  cbn [initial lastPasteId]. destruct (reduce_max_bounds seed) as [H0 Hall].
  split; [exact H0|split; [exact Hall|]].
  unfold reduce_max. rewrite reduce_from.
  destruct (fold_max_attained (map id seed) 0) as [H|H]; [left; exact H|right].
  apply in_map_iff in H. destruct H as (paste & Hid & Hin). eauto.
Qed.

(** X10: along any run that keeps the counter within 2^53, the counter
    goes up by exactly one per 201 response, and no stored record has an
    id above it. *)
Theorem counter_counts_creations (seed : list Paste) (reqs : list Request) :
  let st := fst (serve reqs (initial seed)) in
  let rs := snd (serve reqs (initial seed)) in
  lastPasteId (initial seed) + Z.of_nat (List.length (filter is_created rs))
    <= 9007199254740992 ->
  lastPasteId st =
    lastPasteId (initial seed) + Z.of_nat (List.length (filter is_created rs)) /\
  forall paste, In paste (pastes st) -> id paste <= lastPasteId st.
Proof.
  cbv zeta. intros Hhi.
  assert (- 9007199254740992 <= lastPasteId (initial seed) + 1) as Hlo
    by (destruct (reduce_max_bounds seed); cbn [initial lastPasteId]; lia).
  split.
  - destruct (serve_exact reqs _ Hlo Hhi) as (news & _ & _ & -> & _ & ->). reflexivity.
  - pose proof (serve_bounded reqs _ (initial_bounded seed) Hlo Hhi) as Hb.
    unfold bounded in Hb. rewrite Forall_forall in Hb. exact Hb.
Qed.

(** X11: the array is append-only: whatever the requests, every record
    keeps its place and its contents, and the array grows by one element
    per 201 response. *)
Theorem store_is_append_only (reqs : list Request) (st : Store) :
  let st' := fst (serve reqs st) in
  let rs := snd (serve reqs st) in
  firstn (List.length (pastes st)) (pastes st') = pastes st /\
  List.length (pastes st') =
    (List.length (pastes st) + List.length (filter is_created rs))%nat.
Proof.
  cbv zeta. destruct (serve_appends reqs st) as (news & -> & _ & -> & _).
  cbn [pastes]. split.
  - rewrite firstn_app, Nat.sub_diag, firstn_all. cbn [firstn]. apply app_nil_r.
  - apply length_app.
Qed.

(** X12: a run in which no response is 201 ends in the store it started
    from. *)
Theorem reads_keep_the_store (reqs : list Request) (st : Store) :
  filter is_created (snd (serve reqs st)) = [] ->
  fst (serve reqs st) = st.
Proof.
  intros H. destruct (serve_appends reqs st) as (news & -> & _ & Hlen & _).
  rewrite H in Hlen. destruct news; [|discriminate].
  cbn [List.length advanced]. rewrite app_nil_r. destruct st; reflexivity.
Qed.

(** X13: when the seeded ids are pairwise distinct, the ids of the stored
    records are pairwise distinct after any run that keeps the counter
    within 2^53. *)
Theorem ids_stay_unique (seed : list Paste) (reqs : list Request) :
  NoDup (map id seed) ->
  lastPasteId (initial seed) +
    Z.of_nat (List.length (filter is_created (snd (serve reqs (initial seed)))))
    <= 9007199254740992 ->
  NoDup (map id (pastes (fst (serve reqs (initial seed))))).
Proof.
  intros Hu Hhi. apply serve_unique; [apply initial_bounded|exact Hu| |exact Hhi].
  destruct (reduce_max_bounds seed); cbn [initial lastPasteId]; lia.
Qed.

(** X14: when the seeded ids are pairwise distinct, every record of the
    store, seeded or created, is the one that a request under
    [/pastes/<spelling of its id>] returns, after any run that keeps the
    counter within 2^53. *)
Theorem every_stored_paste_is_fetchable (seed : list Paste) (reqs : list Request)
    (req : Request) (s : string) (paste : Paste) :
  NoDup (map id seed) ->
  let st := fst (serve reqs (initial seed)) in
  lastPasteId (initial seed) +
    Z.of_nat (List.length (filter is_created (snd (serve reqs (initial seed)))))
    <= 9007199254740992 ->
  In paste (pastes st) ->
  pasteId_param req = Some s -> Number s = Some (id paste) ->
  handle req st = (st, Some (ok (paste_value paste))).
Proof.
  intros Hu st Hhi Hin Hs Hn. rewrite (handle_paste _ _ _ Hs).
  destruct (search_finds s (pastes st)) as (foundPaste & Hf & Hin' & Hn'); [eauto|].
  rewrite Hf.
  assert (foundPaste = paste) as ->; [|reflexivity].
  apply (same_id_same_paste (pastes st)); try assumption.
  - apply serve_unique; [apply initial_bounded|exact Hu| |exact Hhi].
    destruct (reduce_max_bounds seed); cbn [initial lastPasteId]; lia.
  - congruence.
Qed.

(** X15: along a run that keeps the counter within 2^53, every id handed
    out by a creation is at least 1 and above every seeded id. *)
Theorem created_ids_exceed_seeded (seed : list Paste) (reqs : list Request) (n : Z) :
  lastPasteId (initial seed) +
    Z.of_nat (List.length (filter is_created (snd (serve reqs (initial seed)))))
    <= 9007199254740992 ->
  In (VNum n) (map id_of (created (snd (serve reqs (initial seed))))) ->
  1 <= n /\ forall paste, In paste seed -> id paste < n.
Proof.
  intros Hhi. destruct (reduce_max_bounds seed) as [H0 Hall].
  destruct (serve_exact reqs (initial seed)) as (news & _ & -> & _ & Hids & _);
    [cbn [initial lastPasteId]; lia|exact Hhi|].
  rewrite map_map. intros Hin. apply in_map_iff in Hin.
  destruct Hin as (p & Hp & Hin). cbn in Hp. injection Hp as <-.
  assert (In (id p) (map id news)) as Hc by (apply in_map; exact Hin).
  rewrite Hids in Hc. apply consecutive_above in Hc.
  cbn [initial lastPasteId] in Hc.
  split; [lia|]. intros paste Hs. apply Hall in Hs. lia.
Qed.

(** X16: at 2^53 the counter stops: [++lastPasteId] gives 2^53 again, so
    from a store whose counter is 2^53 every creation, in any run, is
    given the id 2^53 and the counter stays where it is. *)
Theorem counter_stops_at_two53 (reqs : list Request) (st : Store) :
  lastPasteId st = 9007199254740992 ->
  lastPasteId (fst (serve reqs st)) = 9007199254740992 /\
  forall record, In record (created (snd (serve reqs st))) ->
                 id_of record = VNum 9007199254740992.
Proof.
  intros Hst. destruct (serve_appends reqs st) as (news & -> & -> & _ & Hids).
  cbn [lastPasteId]. rewrite Hst in *.
  assert (forall k, advanced 9007199254740992 k = 9007199254740992 /\
                    Forall (fun x => x = 9007199254740992) (assigned 9007199254740992 k))
    as Hstuck.
  { induction k as [|k [IH1 IH2]]; cbn [advanced assigned]; [auto|].
    change (increment 9007199254740992) with 9007199254740992. auto. }
  destruct (Hstuck (List.length news)) as [H1 H2]. split; [exact H1|].
  intros record Hin. apply in_map_iff in Hin. destruct Hin as (p & <- & Hin).
  rewrite <- Hids, Forall_map, Forall_forall in H2. cbn. f_equal. apply H2, Hin.
Qed.

End Behaviour.

(** ** Worked requests for the further properties *)

Lemma only_a_creation_changes_the_store_witness :
  let st := initial seed3 in
  fst (handle (platform := node) (get_request "/pastes" ["pastes"]) st) = st /\
  exists newPaste,
    id newPaste = 4 /\
    fst (handle (platform := node) post_hello st) = pushed st newPaste.
Proof.
  cbv zeta. split.
  - apply (proj1 (only_a_creation_changes_the_store (platform := node)
                    (get_request "/pastes" ["pastes"]) (initial seed3))).
    reflexivity.
  - destruct (proj2 (only_a_creation_changes_the_store (platform := node)
                       post_hello (initial seed3)) eq_refl)
      as (newPaste & Hid & Hst & _).
    exists newPaste. split; [exact Hid|exact Hst].
Defined.

Lemma other_requests_answer_500_witness :
  let req := {| method := DELETE; originalUrl := "/pastes"; path := ["pastes"];
                body := VObj [] |} in
  paste_segment req = None /\ In (method req) [PUT; PATCH; DELETE; OPTIONS] /\
  handle (platform := node) req (initial seed3) =
    (initial seed3, Some (failure 500 "Something went wrong!")).
Proof.
  cbv zeta. split; [reflexivity|split; [simpl; tauto|]].
  apply (other_requests_answer_500 (platform := node)); [reflexivity|].
  right. simpl. tauto.
Defined.

Lemma paste_route_never_creates_witness :
  let req := post_request "/pastes/9" ["pastes"; "9"] hello in
  paste_segment req = Some "9" /\
  fst (handle (platform := node) req (initial seed3)) = initial seed3.
Proof.
  cbv zeta. split; [reflexivity|].
  apply (proj1 (paste_route_never_creates (platform := node)
                  (post_request "/pastes/9" ["pastes"; "9"] hello)
                  (initial seed3) "9" eq_refl)).
Defined.

Lemma lookup_covers_deeper_paths_witness :
  lower "Pastes" = "pastes" /\ "%32" <> "" /\
  handle (platform := node)
    {| method := PUT; originalUrl := "/Pastes/%32/raw"; path := ["Pastes"; "%32"; "raw"];
       body := VObj [] |} (initial seed3) =
  (initial seed3, Some (ok (paste_value (paste_of 2 "two")))).
Proof.
  split; [reflexivity|split; [discriminate|]].
  exact (lookup_covers_deeper_paths (platform := node) PUT "/Pastes/%32/raw" "Pastes"
           "%32" ["raw"] (VObj []) (initial seed3) eq_refl
           (fun H => eq_ind "%32" (fun s => if String.eqb s "" then False else True) I "" H)).
Defined.

Lemma missing_text_answers_400_witness :
  let req := post_request "/pastes" ["pastes"]
               (VObj [("data", VObj [("text", VStr ""); ("name", VStr "n")])]) in
  method req = POST /\ at_pastes req = true /\
  handle (platform := node) req (initial seed3) =
    (initial seed3, Some (failure 400 "A 'text' property is required.")).
Proof.
  cbv zeta. split; [reflexivity|split; [reflexivity|]].
  apply (missing_text_answers_400 (platform := node) _ _
           (VObj [("text", VStr ""); ("name", VStr "n")]));
    [reflexivity|reflexivity|reflexivity|discriminate|reflexivity].
Defined.

Lemma destructuring_failure_answers_500_witness :
  let req := post_request "/pastes" ["pastes"]
               (VObj [("data", VNull); ("note", VStr "x")]) in
  method req = POST /\ at_pastes req = true /\
  handle (platform := node) req (initial seed3) =
    (initial seed3, Some (failure 500 "Cannot destructure property 'text'")).
Proof.
  cbv zeta. split; [reflexivity|split; [reflexivity|]].
  apply (proj2 (destructuring_failure_answers_500 (platform := node)
                  (post_request "/pastes" ["pastes"]
                     (VObj [("data", VNull); ("note", VStr "x")]))
                  (initial seed3) eq_refl eq_refl)
           [("data", VNull); ("note", VStr "x")]); reflexivity.
Defined.

Lemma error_defaults_are_per_field_witness :
  let req := get_request "/pastes" ["pastes"] in
  dispatch (platform := node) (app (platform := node)) (Some (SigObject [("status", VNum 418)])) req
    (initial seed3) =
    (initial seed3, Some (failure 418 "Something went wrong!")) /\
  dispatch (platform := node) (app (platform := node)) (Some (SigObject [("message", VStr "boom")])) req
    (initial seed3) =
    (initial seed3, Some (failure 500 "boom")).
Proof.
  cbv zeta. split.
  - apply (proj1 (error_defaults_are_per_field (platform := node)
                    [("status", VNum 418)] (get_request "/pastes" ["pastes"])
                    (initial seed3)) (VNum 418));
      [reflexivity|discriminate|reflexivity].
  - apply (proj2 (error_defaults_are_per_field (platform := node)
                    [("message", VStr "boom")] (get_request "/pastes" ["pastes"])
                    (initial seed3)) (VStr "boom"));
      [reflexivity|reflexivity|discriminate].
Defined.

Lemma counter_counts_creations_witness :
  let st := fst (serve (platform := node) [post_hello; post_hello] (initial seed3)) in
  lastPasteId st = 5 /\ forall paste, In paste (pastes st) -> id paste <= 5.
Proof.
  cbv zeta.
  apply (counter_counts_creations (platform := node) seed3 [post_hello; post_hello]).
  vm_compute; discriminate.
Defined.

Lemma reads_keep_the_store_witness :
  let reqs := [get_request "/pastes" ["pastes"]; get_request "/pastes/1" ["pastes"; "1"];
               get_request "/nowhere" ["nowhere"];
               post_request "/pastes" ["pastes"] (VObj [])] in
  filter is_created (snd (serve (platform := node) reqs (initial seed3))) = [] /\
  fst (serve (platform := node) reqs (initial seed3)) = initial seed3.
Proof.
  cbv zeta. split; [reflexivity|].
  apply (reads_keep_the_store (platform := node)). reflexivity.
Defined.

Lemma seed3_ids_distinct : NoDup (map id seed3).
Proof.
  repeat constructor; simpl; intuition discriminate.
Defined.

Lemma ids_stay_unique_witness :
  NoDup (map id seed3) /\
  NoDup (map id (pastes (fst (serve (platform := node) [post_hello; post_hello]
                                (initial seed3))))).
Proof.
  split; [exact seed3_ids_distinct|].
  apply (ids_stay_unique (platform := node)); [exact seed3_ids_distinct|].
  vm_compute; discriminate.
Defined.

Lemma every_stored_paste_is_fetchable_witness :
  let st := fst (serve (platform := node) [post_hello] (initial seed3)) in
  In (paste_of 3 "three") (pastes st) /\
  handle (platform := node) (get_request "/pastes/3" ["pastes"; "3"]) st =
    (st, Some (ok (paste_value (paste_of 3 "three")))).
Proof.
  cbv zeta. split; [simpl; tauto|].
  apply (every_stored_paste_is_fetchable (platform := node) seed3 [post_hello]
           (get_request "/pastes/3" ["pastes"; "3"]) "3" (paste_of 3 "three")
           seed3_ids_distinct);
    [vm_compute; discriminate|simpl; tauto|reflexivity|reflexivity].
Defined.

Lemma created_ids_exceed_seeded_witness :
  In (VNum 5) (map id_of (created (snd (serve (platform := node)
                                           [post_hello; post_hello] (initial seed3))))) /\
  1 <= 5 /\ forall paste, In paste seed3 -> id paste < 5.
Proof.
  split; [simpl; tauto|].
  apply (created_ids_exceed_seeded (platform := node) seed3 [post_hello; post_hello] 5);
    [vm_compute; discriminate|simpl; tauto].
Defined.

Lemma counter_stops_at_two53_witness :
  let st := initial [paste_of 9007199254740992 "old"] in
  let reqs := [post_hello; post_hello] in
  lastPasteId st = 9007199254740992 /\
  lastPasteId (fst (serve (platform := node) reqs st)) = 9007199254740992 /\
  forall record, In record (created (snd (serve (platform := node) reqs st))) ->
                 id_of record = VNum 9007199254740992.
Proof.
  cbv zeta. split; [reflexivity|].
  exact (counter_stops_at_two53 (platform := node) [post_hello; post_hello]
           (initial [paste_of 9007199254740992 "old"]) eq_refl).
Defined.
